(** * steemvote: the settings panel ([steemvote/gui/settings.py])

  A shallow embedding of the settings model ([SettingsModel]), of the
  editing widgets ([MinutesWidget] and the priority spin boxes) and of the
  cross-field check ([SettingsWidget.check_conflicting_values]), with the
  properties of the panel's specification stated and settled on it.

  Python's [float] is IEEE 754 binary64.  It is modelled by the Standard
  Library's executable specification of binary floating point
  ([spec_float], precision 53, maximal exponent 1024), so that every
  comparison, product and quotient below is the one the interpreter
  computes, bit for bit. *)

From Stdlib Require Import ZArith String Ascii List Bool Lia.
From Stdlib Require Import Floats.SpecFloat.
From stdpp Require Import base strings gmap.

Local Open Scope Z_scope.

(** ** Python floats *)

Module Py.

Definition float : Type := spec_float.

Definition prec : Z := 53.
Definition emax : Z := 1024.

(** [a < b], [a > b], [a <= b], [a >= b] on floats; each is [False] as
    soon as one side is a NaN. *)
Definition lt (a b : float) : bool := SFltb a b.
Definition gt (a b : float) : bool := SFltb b a.
Definition le (a b : float) : bool := SFleb a b.
Definition ge (a b : float) : bool := SFleb b a.

Definition is_nan (a : float) : bool :=
  match a with S754_nan => true | _ => false end.

(** [a * b] and [a / b].  The only divisor in the source is the literal
    [60.0], so the [ZeroDivisionError] of Python's [/] cannot occur. *)
Definition mul (a b : float) : float := SFmul prec emax a b.
Definition truediv (a b : float) : float := SFdiv prec emax a b.

(** The double nearest to [±n/d] (ties to even): what reading a decimal
    literal or a decimal string produces. *)
Definition of_ratio (s : bool) (n d : positive) : float :=
  let '(q, e, l) := SFdiv_core_binary prec emax (Zpos n) 0 (Zpos d) 0 in
  binary_round_aux prec emax s q e l.

Definition of_Z (n : Z) : float := binary_normalize prec emax n 0 false.

Definition pow10 (k : N) : positive := Z.to_pos (10 ^ Z.of_N k).

(** The decimal [n * 10^-k], for a literal such as [0.1] or [1000.0]. *)
Definition of_decimal (n : Z) (k : N) : float :=
  match n with
  | Z0 => S754_zero false
  | Zpos p => of_ratio false p (pow10 k)
  | Zneg p => of_ratio true p (pow10 k)
  end.

(** Nearest integer to the exact quotient [n/d], ties to the even one. *)
Definition div_half_even (n d : Z) : Z :=
  let (q, r) := Z.div_eucl n d in
  match 2 * r ?= d with
  | Lt => q
  | Gt => q + 1
  | Eq => if Z.even q then q else q + 1
  end.

(** [round(x, ndigits)] for a float [x] and the non-negative [ndigits] the
    source passes.  CPython rounds the exact binary value of [x] to
    [ndigits] decimal places (ties to even) and reads the decimal back as
    the nearest double; NaN, the infinities and the zeros are returned as
    they are, and so is [x] when [ndigits] exceeds 323. *)
Definition round (x : float) (ndigits : N) : float :=
  match x with
  | S754_finite s m e =>
      if (323 <? ndigits)%N then x
      else
        let k :=
          match e with
          | Zneg p => div_half_even (Zpos m * Zpos (pow10 ndigits)) (2 ^ Zpos p)
          | _ => Zpos m * 2 ^ e * Zpos (pow10 ndigits)
          end in
        match k with
        | Zpos p => of_ratio s p (pow10 ndigits)
        | _ => S754_zero s
        end
  | _ => x
  end.

(** *** [str] of a float and [float] of a string *)

(** Equality of representations (the doubles handled here are in
    canonical form, where it is equality of values, signed zeros apart). *)
Definition same (a b : float) : bool :=
  match a, b with
  | S754_zero s, S754_zero t => Bool.eqb s t
  | S754_infinity s, S754_infinity t => Bool.eqb s t
  | S754_nan, S754_nan => true
  | S754_finite s m e, S754_finite t n f =>
      Bool.eqb s t && Pos.eqb m n && Z.eqb e f
  | _, _ => false
  end.

(** The double nearest to [±k * 10^-p]. *)
Definition of_scaled (s : bool) (k p : Z) : float :=
  match k with
  | Zpos kp =>
      if 0 <=? p then of_ratio s kp (Z.to_pos (10 ^ p))
      else of_ratio s (kp * Z.to_pos (10 ^ (- p))) 1
  | _ => S754_zero s
  end.

Definition digit_char (d : Z) : ascii := ascii_of_N (48 + Z.to_N d).

Fixpoint digits_acc (fuel : nat) (n : Z) (acc : string) : string :=
  match fuel with
  | O => acc
  | S fuel' =>
      if n <? 10 then String (digit_char n) acc
      else digits_acc fuel' (n / 10) (String (digit_char (n mod 10)) acc)
  end.

(** Decimal digits of a non-negative integer, most significant first. *)
Definition digits_of_Z (n : Z) : string :=
  digits_acc (S (Z.to_nat (Z.log2 n))) n EmptyString.

(** [n/d >= 10^k]. *)
Definition ge_pow10 (n d : positive) (k : Z) : bool :=
  if 0 <=? k then Zpos d * 10 ^ k <=? Zpos n
  else Zpos d <=? Zpos n * 10 ^ (- k).

(** The position of the decimal point of [n/d]: the [decpt] with
    [10^(decpt-1) <= n/d < 10^decpt]. *)
Definition decpt_of (n d : positive) : Z :=
  let est := (Z.log2 (Zpos n) - Z.log2 (Zpos d)) * 30103 / 100000 in
  if ge_pow10 n d (est + 1) then est + 2
  else if ge_pow10 n d est then est + 1
  else est.

(** [n/d * 10^p] as a fraction. *)
Definition scale10 (n d : positive) (p : Z) : Z * Z :=
  if 0 <=? p then (Zpos n * 10 ^ p, Zpos d) else (Zpos n, Zpos d * 10 ^ (- p)).

(** The decimals with [ndig] significant digits on either side of [n/d]:
    the one that reads back as [x], the nearer one first. *)
Definition candidate (x : float) (s : bool) (n d : positive) (decpt ndig : Z)
  : option Z :=
  let p := ndig - decpt in
  let (num, den) := scale10 n d p in
  let (lo, r) := Z.div_eucl num den in
  let hi := lo + 1 in
  let ok_lo := (0 <? lo) && same (of_scaled s lo p) x in
  let ok_hi := same (of_scaled s hi p) x in
  let lo_first :=
    match 2 * r ?= den with
    | Lt => true
    | Gt => false
    | Eq => Z.even lo
    end in
  if lo_first then
    if ok_lo then Some lo else if ok_hi then Some hi else None
  else
    if ok_hi then Some hi else if ok_lo then Some lo else None.

(** Seventeen significant digits always read back as the same double. *)
Definition nearest17 (n d : positive) (decpt : Z) : Z :=
  let (num, den) := scale10 n d (17 - decpt) in div_half_even num den.

(** The shortest digit string, tried from [ndig] digits up to 16, then
    17; the result is the digits as an integer and their number. *)
Fixpoint shortest (fuel : nat) (x : float) (s : bool) (n d : positive)
    (decpt ndig : Z) : Z * Z :=
  match fuel with
  | O => (nearest17 n d decpt, 17)
  | S fuel' =>
      match candidate x s n d decpt ndig with
      | Some k => (k, ndig)
      | None => shortest fuel' x s n d decpt (ndig + 1)
      end
  end.

Fixpoint zeros (n : nat) : string :=
  match n with
  | O => EmptyString
  | S n' => String "0" (zeros n')
  end.

Fixpoint strip_zeros_rev (s : list ascii) : list ascii :=
  match s with
  | "0"%char :: s' => strip_zeros_rev s'
  | _ => s
  end.

(** The text of a finite non-zero double from its shortest digit string
    and the position of the decimal point: positional notation, exponent
    notation from [1e16] on and below [1e-4]. *)
Definition format_repr (s : bool) (digits : string) (decpt : Z) : string :=
  let sign := if s then "-" else "" in
  let n := Z.of_nat (String.length digits) in
  if (decpt <=? -4) || (16 <? decpt) then
    let e := decpt - 1 in
    let mant :=
      match digits with
      | String c EmptyString => String c EmptyString
      | String c rest => String c ("." +:+ rest)
      | EmptyString => EmptyString
      end in
    let ee := digits_of_Z (Z.abs e) in
    sign +:+ mant +:+ "e" +:+ (if e <? 0 then "-" else "+")
         +:+ (if Z.abs e <? 10 then "0" else "") +:+ ee
  else if decpt <=? 0 then
    sign +:+ "0." +:+ zeros (Z.to_nat (- decpt)) +:+ digits
  else if n <=? decpt then
    sign +:+ digits +:+ zeros (Z.to_nat (decpt - n)) +:+ ".0"
  else
    sign +:+ substring 0 (Z.to_nat decpt) digits +:+ "."
         +:+ substring (Z.to_nat decpt) (Z.to_nat (n - decpt)) digits.

(** [str(x)] for a float (Python 3, where it is [repr(x)]): the shortest
    decimal string that reads back as [x]. *)
Definition str (x : float) : string :=
  match x with
  | S754_nan => "nan"
  | S754_infinity s => if s then "-inf" else "inf"
  | S754_zero s => if s then "-0.0" else "0.0"
  | S754_finite s m e =>
      let n := match e with Zneg _ => m | _ => Z.to_pos (Zpos m * 2 ^ e) end in
      let d := match e with Zneg p => Z.to_pos (2 ^ Zpos p) | _ => 1%positive end in
      let decpt := decpt_of n d in
      let (k, ndig) := shortest 16 x s n d decpt 1 in
      let ds := string_of_list_ascii
                  (rev (strip_zeros_rev (rev (list_ascii_of_string (digits_of_Z k))))) in
      let decpt' := decpt + (Z.of_nat (String.length (digits_of_Z k)) - ndig) in
      format_repr s ds decpt'
  end.

(** Leading decimal digits of [s]: their value after [acc], their number
    and the rest of the string. *)
Fixpoint take_digits (s : string) (acc : Z) (cnt : Z) : Z * Z * string :=
  match s with
  | String c rest =>
      let n := Z.of_N (N_of_ascii c) in
      if (48 <=? n) && (n <=? 57) then take_digits rest (10 * acc + (n - 48)) (cnt + 1)
      else (acc, cnt, s)
  | EmptyString => (acc, cnt, s)
  end.

Definition take_sign (s : string) : bool * string :=
  match s with
  | String "-" rest => (true, rest)
  | String "+" rest => (false, rest)
  | _ => (false, s)
  end.

(** [float(s)] for a decimal numeral [[+-]ddd[.ddd][e[+-]dd]] and for
    [nan] and [inf]; [None] stands for Python's [ValueError]. *)
Definition float_of_string (s : string) : option float :=
  let (sg, s1) := take_sign s in
  if String.eqb s1 "nan" then Some S754_nan
  else if String.eqb s1 "inf" then Some (S754_infinity sg)
  else
    let '(ip, ic, s2) := take_digits s1 0 0 in
    let '(m, fc, s3) :=
      match s2 with
      | String "." rest => take_digits rest ip 0
      | _ => (ip, 0, s2)
      end in
    if ic + fc =? 0 then None
    else
      match s3 with
      | EmptyString => Some (of_scaled sg m fc)
      | String c rest =>
          if Ascii.eqb c "e" || Ascii.eqb c "E" then
            let (es, s4) := take_sign rest in
            let '(ev, ec, s5) := take_digits s4 0 0 in
            if (ec =? 0) || negb (String.eqb s5 "") then None
            else Some (of_scaled sg m (fc - (if es then - ev else ev)))
          else None
      end.

(** *** Rounding to 53 bits, as the arithmetic above performs it *)


End Py.

(** ** The parts of Qt the panel relies on *)

Module Qt.

(** A [QModelIndex]: valid when it belongs to a model and has a
    non-negative row and column. *)
Record QModelIndex : Type := {
  row : Z;
  column : Z;
  has_model : bool
}.

Definition isValid (index : QModelIndex) : bool :=
  (0 <=? row index) && (0 <=? column index) && has_model index.

(** A [QDoubleSpinBox], reduced to the properties that decide its value. *)
Record QDoubleSpinBox : Type := {
  actualMin : Py.float;
  actualMax : Py.float;
  minimum : Py.float;
  maximum : Py.float;
  decimals : N;
  value : Py.float
}.

(** A freshly constructed spin box: range [0.0 .. 99.99], two decimals,
    value at the minimum. *)
Definition new : QDoubleSpinBox :=
  {| actualMin := S754_zero false;
     actualMax := Py.of_decimal 9999 2;
     minimum := S754_zero false;
     maximum := Py.of_decimal 9999 2;
     decimals := 2;
     value := S754_zero false |}.

(** The spin box rounds every double it is given to its number of
    decimals (it prints the double with that many decimals and reads the
    text back). *)
Definition round (sb : QDoubleSpinBox) (v : Py.float) : Py.float :=
  Py.round v (decimals sb).

Definition variantCompare (a b : Py.float) : Z :=
  if SFeqb a b then 0 else if SFltb a b then -1 else 1.

(** Clamp into [minimum .. maximum], both ends included. *)
Definition bound (sb : QDoubleSpinBox) (v : Py.float) : Py.float :=
  let v := if variantCompare v (minimum sb) <? 0 then minimum sb else v in
  if 0 <? variantCompare v (maximum sb) then maximum sb else v.

Definition with_value (sb : QDoubleSpinBox) (v : Py.float) : QDoubleSpinBox :=
  {| actualMin := actualMin sb; actualMax := actualMax sb;
     minimum := minimum sb; maximum := maximum sb;
     decimals := decimals sb; value := v |}.

Definition setValue (sb : QDoubleSpinBox) (v : Py.float) : QDoubleSpinBox :=
  with_value sb (bound sb (round sb v)).

Definition setRange (sb : QDoubleSpinBox) (lo hi : Py.float) : QDoubleSpinBox :=
  let lo' := round sb lo in
  let hi' := round sb hi in
  let sb' :=
    {| actualMin := lo; actualMax := hi;
       minimum := lo';
       maximum := if variantCompare lo' hi' <? 0 then hi' else lo';
       decimals := decimals sb; value := value sb |} in
  with_value sb' (bound sb' (value sb')).

Definition setDecimals (sb : QDoubleSpinBox) (d : N) : QDoubleSpinBox :=
  let sb' :=
    {| actualMin := actualMin sb; actualMax := actualMax sb;
       minimum := minimum sb; maximum := maximum sb;
       decimals := N.min d 323; value := value sb |} in
  let sb'' := setRange sb' (actualMin sb') (actualMax sb') in
  setValue sb'' (value sb'').

(** [sb] has the range of [sb0] and shows a value inside it, end points
    included. *)
Definition in_range (sb0 sb : QDoubleSpinBox) : Prop :=
  minimum sb = minimum sb0
  /\ maximum sb = maximum sb0
  /\ decimals sb = decimals sb0
  /\ Py.le (minimum sb) (value sb) = true
  /\ Py.le (value sb) (maximum sb) = true.

End Qt.

(** ** The configuration object

  [steemvote.config] is a collaborator of the panel.  The model reads it
  through [get_seconds] and [get_decimal] and changes it through [set]
  and [save]; reads are taken as given, changes are recorded as effects. *)

Module Config.

Record t : Type := {
  get_seconds : string -> Py.float;
  get_decimal : string -> Py.float
}.


End Config.

(** What a call into the panel does to the outside: calls on the
  configuration object and signals emitted. *)
Inductive effect : Type :=
| ConfigSet (key value : string)
| ConfigSave
| DataChanged (topLeft bottomRight : Qt.QModelIndex)
| SettingsChanged.

(** ** [SettingsModel]: the table model over the configuration *)

Module SettingsModel.

Import Qt.

Definition MIN_POST_AGE : Z := 0.
Definition MAX_POST_AGE : Z := 1.
Definition PRIORITY_HIGH : Z := 2.
Definition PRIORITY_NORMAL : Z := 3.
Definition PRIORITY_LOW : Z := 4.
Definition TOTAL_FIELDS : Z := 5.

Definition save : list effect := [ConfigSave].

Definition columnCount : Z := TOTAL_FIELDS.

Definition rowCount : Z := 1.

(** The literals [60.0] and [100.0]. *)
Definition sixty : Py.float := Py.of_decimal 600 1.
Definition hundred : Py.float := Py.of_decimal 1000 1.

(** [data(index)]: [None] is Python's [None]. *)
Definition data (config : Config.t) (index : QModelIndex) : option Py.float :=
  if negb (isValid index) then None
  else
    let c := column index in
    if c =? MIN_POST_AGE then
      Some (Py.truediv (Config.get_seconds config "min_post_age") sixty)
    else if c =? MAX_POST_AGE then
      Some (Py.truediv (Config.get_seconds config "max_post_age") sixty)
    else if c =? PRIORITY_HIGH then
      Some (Py.mul (Config.get_decimal config "priority_high") hundred)
    else if c =? PRIORITY_NORMAL then
      Some (Py.mul (Config.get_decimal config "priority_normal") hundred)
    else if c =? PRIORITY_LOW then
      Some (Py.mul (Config.get_decimal config "priority_low") hundred)
    else None.

(** [setData(index, value)]: the result and, in order, the calls made on
    the configuration and the signals emitted. *)
Definition setData (index : QModelIndex) (value : option Py.float)
  : bool * list effect :=
  if negb (isValid index) then (false, [])
  else
    match value with
    | None => (false, [])
    | Some value =>
        let c := column index in
        if c =? MIN_POST_AGE then
          let value := Py.str (Py.round value 2) +:+ " minutes" in
          (true, [ConfigSet "min_post_age" value; DataChanged index index])
        else if c =? MAX_POST_AGE then
          let value := Py.str (Py.round value 2) +:+ " minutes" in
          (true, [ConfigSet "max_post_age" value; DataChanged index index])
        else if c =? PRIORITY_HIGH then
          let value := Py.str (Py.round value 4) +:+ "%" in
          (true, [ConfigSet "priority_high" value; DataChanged index index])
        else if c =? PRIORITY_NORMAL then
          let value := Py.str (Py.round value 4) +:+ "%" in
          (true, [ConfigSet "priority_normal" value; DataChanged index index])
        else if c =? PRIORITY_LOW then
          let value := Py.str (Py.round value 4) +:+ "%" in
          (true, [ConfigSet "priority_low" value; DataChanged index index])
        else (false, [])
    end.

(** The index the model hands out for a cell of its table, the invalid
    index outside of it. *)
Definition index (r c : Z) : QModelIndex :=
  if (0 <=? r) && (r <? rowCount) && (0 <=? c) && (c <? columnCount)
  then {| row := r; column := c; has_model := true |}
  else {| row := -1; column := -1; has_model := false |}.

End SettingsModel.

(** ** [MinutesWidget]: a spin box for a timespan in minutes *)

Module MinutesWidget.

(** [setRange(0.1, 1000.0)], [setDecimals(2)]; the suffix does not bear on
    the value. *)
Definition new : Qt.QDoubleSpinBox :=
  Qt.setDecimals (Qt.setRange Qt.new (Py.of_decimal 1 1) (Py.of_decimal 10000 1)) 2.

End MinutesWidget.

(** ** [SettingsWidget]: the panel *)

Module SettingsWidget.

Import Qt.

Record t : Type := {
  min_post_age : QDoubleSpinBox;
  max_post_age : QDoubleSpinBox;
  priority_high : QDoubleSpinBox;
  priority_normal : QDoubleSpinBox;
  priority_low : QDoubleSpinBox;
  (** the text of the error label *)
  error_label : string;
  (** whether the save button is enabled *)
  save_settings_button : bool
}.

(** The three priority spin boxes: [setRange(1.0, 100.0)],
    [setDecimals(4)]; step and suffix do not bear on the value. *)
Definition priority_widget : QDoubleSpinBox :=
  setDecimals (setRange Qt.new (Py.of_decimal 10 1) (Py.of_decimal 1000 1)) 4.

(** The widget the mapper ties to a column of the model. *)
Definition mapped (w : t) (c : Z) : option QDoubleSpinBox :=
  if c =? SettingsModel.MIN_POST_AGE then Some (min_post_age w)
  else if c =? SettingsModel.MAX_POST_AGE then Some (max_post_age w)
  else if c =? SettingsModel.PRIORITY_HIGH then Some (priority_high w)
  else if c =? SettingsModel.PRIORITY_NORMAL then Some (priority_normal w)
  else if c =? SettingsModel.PRIORITY_LOW then Some (priority_low w)
  else None.

Definition with_mapped (w : t) (c : Z) (sb : QDoubleSpinBox) : t :=
  {| min_post_age := if c =? SettingsModel.MIN_POST_AGE then sb else min_post_age w;
     max_post_age := if c =? SettingsModel.MAX_POST_AGE then sb else max_post_age w;
     priority_high := if c =? SettingsModel.PRIORITY_HIGH then sb else priority_high w;
     priority_normal := if c =? SettingsModel.PRIORITY_NORMAL then sb else priority_normal w;
     priority_low := if c =? SettingsModel.PRIORITY_LOW then sb else priority_low w;
     error_label := error_label w;
     save_settings_button := save_settings_button w |}.

(** The mapper shows a cell of the model in its widget. *)
Definition populate (config : Config.t) (w : t) (c : Z) : t :=
  match mapped w c, SettingsModel.data config (SettingsModel.index 0 c) with
  | Some sb, Some v => with_mapped w c (setValue sb v)
  | _, _ => w
  end.

(** [__init__]: the widgets are built, then [setCurrentIndex(0)] fills
    them from the model. *)
Definition init (config : Config.t) : t :=
  let w :=
    {| min_post_age := MinutesWidget.new;
       max_post_age := MinutesWidget.new;
       priority_high := priority_widget;
       priority_normal := priority_widget;
       priority_low := priority_widget;
       error_label := "";
       save_settings_button := true |} in
  fold_left (populate config)
    [SettingsModel.MIN_POST_AGE; SettingsModel.MAX_POST_AGE;
     SettingsModel.PRIORITY_HIGH; SettingsModel.PRIORITY_NORMAL;
     SettingsModel.PRIORITY_LOW] w.

Definition save_settings : list effect :=
  SettingsModel.save ++ [SettingsChanged].

Definition disable_saving (w : t) (reason : string) : t :=
  {| min_post_age := min_post_age w;
     max_post_age := max_post_age w;
     priority_high := priority_high w;
     priority_normal := priority_normal w;
     priority_low := priority_low w;
     error_label := reason;
     save_settings_button := false |}.

Definition check_conflicting_values (w : t) : t :=
  let w :=
    {| min_post_age := min_post_age w;
       max_post_age := max_post_age w;
       priority_high := priority_high w;
       priority_normal := priority_normal w;
       priority_low := priority_low w;
       error_label := "";
       save_settings_button := true |} in
  if Py.gt (value (min_post_age w)) (value (max_post_age w)) then
    disable_saving w "Minimum post age cannot be more than maximum post age"
  else if negb (Py.ge (value (priority_low w)) (value (priority_normal w))
                && Py.ge (value (priority_normal w)) (value (priority_high w))) then
    disable_saving w "Priority values must be as follows: low >= normal >= high"
  else w.

(** A panel whose five spin boxes show the given values. *)
Definition showing (min max high normal low : Py.float) : t :=
  {| min_post_age := with_value MinutesWidget.new min;
     max_post_age := with_value MinutesWidget.new max;
     priority_high := with_value priority_widget high;
     priority_normal := with_value priority_widget normal;
     priority_low := with_value priority_widget low;
     error_label := "";
     save_settings_button := true |}.

(** Every spin box of the panel has the range it was built with and shows
    a value inside it. *)
Definition widgets_in_range (w : t) : Prop :=
  in_range MinutesWidget.new (min_post_age w)
  /\ in_range MinutesWidget.new (max_post_age w)
  /\ in_range priority_widget (priority_high w)
  /\ in_range priority_widget (priority_normal w)
  /\ in_range priority_widget (priority_low w).

(** What can happen to the panel: a spin box is given a value (typed,
    stepped, or shown by the mapper), or the check runs. *)
Inductive step : t -> t -> Prop :=
| step_value w c sb v :
    mapped w c = Some sb -> step w (with_mapped w c (setValue sb v))
| step_check w :
    step w (check_conflicting_values w).

Inductive reachable (config : Config.t) : t -> Prop :=
| reach_init : reachable config (init config)
| reach_step w w' : reachable config w -> step w w' -> reachable config w'.

End SettingsWidget.

(** ** The five fields, as the specification tabulates them *)

Module Spec.

Import SettingsModel.

Definition is_time (c : Z) : bool :=
  (c =? MIN_POST_AGE) || (c =? MAX_POST_AGE).

Definition is_priority (c : Z) : bool :=
  (c =? PRIORITY_HIGH) || (c =? PRIORITY_NORMAL) || (c =? PRIORITY_LOW).

Definition is_field (c : Z) : bool := is_time c || is_priority c.

(** The key of a field in the configuration. *)
Definition key (c : Z) : string :=
  if c =? MIN_POST_AGE then "min_post_age"
  else if c =? MAX_POST_AGE then "max_post_age"
  else if c =? PRIORITY_HIGH then "priority_high"
  else if c =? PRIORITY_NORMAL then "priority_normal"
  else "priority_low".

(** Declared precision: 2 decimals for minutes, 4 for percents. *)
Definition precision (c : Z) : N := if is_time c then 2%N else 4%N.

(** The unit a display value is written with. *)
Definition suffix (c : Z) : string := if is_time c then " minutes" else "%".

(** Display unit to stored unit: minutes to seconds, percent to fraction. *)
Definition to_stored (c : Z) (x : Py.float) : Py.float :=
  if is_time c then Py.mul x sixty else Py.truediv x hundred.

(** Stored unit to display unit: seconds to minutes by [/ 60], fraction to
    percent by [* 100]. *)
Definition to_display (c : Z) (y : Py.float) : Py.float :=
  if is_time c then Py.truediv y sixty else Py.mul y hundred.

(** The values read from the store for a field, in stored units. *)
Definition stored (config : Config.t) (c : Z) : Py.float :=
  if is_time c then Config.get_seconds config (key c)
  else Config.get_decimal config (key c).

(** The declared ranges of the display values, end points included or not
    as the table of fields writes them: [(0.1, 1000.0]] and [[1.0, 100.0]]. *)
Definition in_declared_range (c : Z) (x : Py.float) : bool :=
  if is_time c then
    Py.lt (Py.of_decimal 1 1) x && Py.le x (Py.of_decimal 10000 1)
  else
    Py.le (Py.of_decimal 10 1) x && Py.le x (Py.of_decimal 1000 1).

(** The same ranges with both end points included. *)
Definition in_closed_range (c : Z) (x : Py.float) : bool :=
  if is_time c then
    Py.le (Py.of_decimal 1 1) x && Py.le x (Py.of_decimal 10000 1)
  else
    Py.le (Py.of_decimal 10 1) x && Py.le x (Py.of_decimal 1000 1).

(** The configuration is valid: [min <= max] and [low >= normal >= high]
    on the values the widgets show. *)
Definition consistent (w : SettingsWidget.t) : bool :=
  Py.le (Qt.value (SettingsWidget.min_post_age w))
        (Qt.value (SettingsWidget.max_post_age w))
  && Py.ge (Qt.value (SettingsWidget.priority_low w))
           (Qt.value (SettingsWidget.priority_normal w))
  && Py.ge (Qt.value (SettingsWidget.priority_normal w))
           (Qt.value (SettingsWidget.priority_high w)).

(** The text up to the unit: up to the first blank or percent sign. *)
Fixpoint numeral (text : string) : string :=
  match text with
  | String c rest =>
      if Ascii.eqb c " " || Ascii.eqb c "%" then EmptyString
      else String c (numeral rest)
  | EmptyString => EmptyString
  end.

(** The number handed to the store by the first [set] among the effects. *)
Fixpoint written_number (effects : list effect) : option Py.float :=
  match effects with
  | ConfigSet _ text :: _ => Py.float_of_string (numeral text)
  | _ :: rest => written_number rest
  | [] => None
  end.

End Spec.

(** ** The configuration store *)

Module Store.

(** Modelled from the spec: the external configuration store
    ([steemvote.config], not part of this file).  It holds, key by key, the
    text it was given by [set]; [get_seconds] answers in seconds and
    [get_decimal] as a fraction, the stored units of the specification's
    table of fields, converting a text in minutes by [* 60] and a text in
    percent by [/ 100].  A key without a readable text answers [0.0];
    [save] does not change what is held. *)
Definition set (s : gmap string string) (key value : string) : gmap string string :=
  <[key := value]> s.

(** Modelled from the spec: what the store makes of a text with a unit,
    as it is absent from the sources; [text] without its ending [suffix],
    if it ends with it. *)
Fixpoint strip_suffix (suffix text : string) : option string :=
  if String.eqb text suffix then Some EmptyString
  else
    match text with
    | String c rest => option_map (String c) (strip_suffix suffix rest)
    | EmptyString => None
    end.

(** Modelled from the spec: the number a text of the store starts with,
    before its unit. *)
Definition number_before (suffix text : string) : option Py.float :=
  match strip_suffix suffix text with
  | Some num => Py.float_of_string num
  | None => None
  end.

(** Modelled from the spec: [get_seconds(key)] of the absent store, the
    text held in minutes answered in seconds. *)
Definition get_seconds (s : gmap string string) (key : string) : Py.float :=
  match s !! key with
  | Some text =>
      match number_before " minutes" text with
      | Some x => Py.mul x SettingsModel.sixty
      | None => S754_zero false
      end
  | None => S754_zero false
  end.

(** Modelled from the spec: [get_decimal(key)] of the absent store, the
    text held in percent answered as a fraction. *)
Definition get_decimal (s : gmap string string) (key : string) : Py.float :=
  match s !! key with
  | Some text =>
      match number_before "%" text with
      | Some x => Py.truediv x SettingsModel.hundred
      | None => S754_zero false
      end
  | None => S754_zero false
  end.

(** The store as the model reads it. *)
Definition config (s : gmap string string) : Config.t :=
  {| Config.get_seconds := get_seconds s; Config.get_decimal := get_decimal s |}.

Definition apply (s : gmap string string) (e : effect) : gmap string string :=
  match e with
  | ConfigSet key value => set s key value
  | _ => s
  end.

(** The store after the effects of a call, in order. *)
Definition run (s : gmap string string) (effects : list effect) : gmap string string :=
  fold_left apply effects s.

End Store.

(** ** Any configuration object

    The model is written against whatever object answers [set],
    [get_seconds] and [get_decimal]; this is that interface, for statements
    that hold of every such object. *)

Module ConfigObject.

Record ops (A : Type) : Type := {
  set : A -> string -> string -> A;
  get_seconds : A -> string -> Py.float;
  get_decimal : A -> string -> Py.float
}.

Arguments set {A} _ _ _ _.
Arguments get_seconds {A} _ _ _.
Arguments get_decimal {A} _ _ _.

(** The object in state [s], as the model reads it. *)
Definition view {A : Type} (o : ops A) (s : A) : Config.t :=
  {| Config.get_seconds := get_seconds o s;
     Config.get_decimal := get_decimal o s |}.

(** The state of the object after the calls among the effects, in order. *)
Definition run {A : Type} (o : ops A) (s : A) (effects : list effect) : A :=
  fold_left
    (fun s e => match e with ConfigSet key value => set o s key value | _ => s end)
    effects s.

(** Setting one key does not change what is read under another. *)
Definition keys_apart {A : Type} (o : ops A) : Prop :=
  forall s k k' v,
    k <> k' ->
    get_seconds o (set o s k v) k' = get_seconds o s k'
    /\ get_decimal o (set o s k v) k' = get_decimal o s k'.

(** The store of the previous section is such an object. *)
Definition of_store : ops (gmap string string) :=
  {| set := Store.set;
     get_seconds := Store.get_seconds;
     get_decimal := Store.get_decimal |}.

End ConfigObject.

(** ** The signal of the model, as the panel receives it *)

Module Signals.



End Signals.

(** * Properties *)

(** ** The float primitives on known values *)

Example literal_tenth : Py.of_decimal 1 1 = S754_finite false 7205759403792794 (-56).
Proof. reflexivity. Qed.

(** [round(2.675, 2)] is 2.67, the double 2.675 lying below the decimal;
    exact ties go to the even digit: [round(0.125, 2)] is 0.12 and
    [round(0.375, 2)] is 0.38. *)
Example round_known :
  Py.round (Py.of_decimal 2675 3) 2 = Py.of_decimal 267 2
  /\ Py.round (Py.of_decimal 125 3) 2 = Py.of_decimal 12 2
  /\ Py.round (Py.of_decimal 375 3) 2 = Py.of_decimal 38 2
  /\ Py.round S754_nan 2 = S754_nan.
Proof. repeat split; vm_compute; reflexivity. Qed.

Example str_known :
  Py.str (Py.of_Z 5) = "5.0"
  /\ Py.str (Py.of_decimal 1 1) = "0.1"
  /\ Py.str (Py.truediv (Py.of_Z 1) (Py.of_Z 3)) = "0.3333333333333333"
  /\ Py.str (Py.of_scaled false 1 (-16)) = "1e+16"
  /\ Py.str (Py.of_scaled false 1 5) = "1e-05"
  /\ Py.str (S754_finite false 1 (-1074)) = "5e-324".
Proof. repeat split; vm_compute; reflexivity. Qed.

Example float_of_string_known :
  Py.float_of_string "5.0" = Some (Py.of_Z 5)
  /\ Py.float_of_string "1e+16" = Some (Py.of_scaled false 1 (-16))
  /\ Py.float_of_string "5.0 minutes" = None.
Proof. repeat split; vm_compute; reflexivity. Qed.

(** [0.07 * 100.0] and [0.12 * 60.0 / 60.0] in double arithmetic. *)
Example arithmetic_known :
  Py.str (Py.mul (Py.of_decimal 7 2) SettingsModel.hundred) = "7.000000000000001"
  /\ Py.str (Py.truediv (Py.mul (Py.of_decimal 12 2) SettingsModel.sixty)
                SettingsModel.sixty) = "0.11999999999999998".
Proof. repeat split; vm_compute; reflexivity. Qed.

(** ** Order on floats *)

Section FloatOrder.

Implicit Types a b : Py.float.

Lemma SFcompare_swap a b :
  SFcompare b a = option_map CompOpp (SFcompare a b).
Proof.
  destruct a as [s | s | | s m e], b as [t | t | | t n f]; simpl;
    try reflexivity; try (destruct s; reflexivity);
    try (destruct t; reflexivity);
    try (destruct s, t; reflexivity).
  f_equal.
  destruct s, t; try reflexivity;
    rewrite (Z.compare_antisym e f);
    destruct (e ?= f); simpl; try reflexivity;
    rewrite (Pos.compare_cont_antisym m n Eq); simpl;
    try rewrite CompOpp_involutive; reflexivity.
Qed.

(** [a <= b] excludes [a > b]. *)
Lemma le_not_gt a b : Py.le a b = true -> Py.gt a b = false.
Proof.
  unfold Py.le, Py.gt, SFleb, SFltb. rewrite (SFcompare_swap a b).
  destruct (SFcompare a b) as [[ | | ] | ]; simpl; congruence.
Qed.

Lemma gt_not_le a b : Py.gt a b = true -> Py.le a b = false.
Proof.
  intros H. destruct (Py.le a b) eqn:E; [ | reflexivity ].
  apply le_not_gt in E. congruence.
Qed.

Lemma compare_not_nan a b :
  Py.is_nan a = false -> Py.is_nan b = false -> SFcompare a b <> None.
Proof.
  destruct a as [s | s | | s m e], b as [t | t | | t n f]; simpl;
    intros; congruence.
Qed.

(** Away from NaN the order is total: not [a > b] is [a <= b]. *)
Lemma not_gt_le a b :
  Py.is_nan a = false -> Py.is_nan b = false ->
  Py.gt a b = false -> Py.le a b = true.
Proof.
  intros Ha Hb. pose proof (compare_not_nan a b Ha Hb) as Hc.
  unfold Py.le, Py.gt, SFleb, SFltb. rewrite (SFcompare_swap a b).
  destruct (SFcompare a b) as [[ | | ] | ]; simpl; congruence.
Qed.

Lemma le_not_nan_l a b : Py.le a b = true -> Py.is_nan a = false.
Proof.
  destruct a; try reflexivity. unfold Py.le, SFleb; simpl; discriminate.
Qed.

Lemma le_not_nan_r a b : Py.le a b = true -> Py.is_nan b = false.
Proof.
  destruct b; try reflexivity.
  unfold Py.le, SFleb; destruct a; simpl; discriminate.
Qed.

End FloatOrder.

(** ** The consistency check *)

Section Check.

Import Qt SettingsWidget.

Implicit Types w : SettingsWidget.t.

Lemma check_keeps_widgets w :
  min_post_age (check_conflicting_values w) = min_post_age w
  /\ max_post_age (check_conflicting_values w) = max_post_age w
  /\ priority_high (check_conflicting_values w) = priority_high w
  /\ priority_normal (check_conflicting_values w) = priority_normal w
  /\ priority_low (check_conflicting_values w) = priority_low w.
Proof.
  unfold check_conflicting_values; simpl.
  destruct (Py.gt _ _); [ simpl; tauto | ].
  destruct (negb _); simpl; tauto.
Qed.

(** C1: whenever the minimum post age shown exceeds the maximum post age
    shown, the check disables saving and reports "Minimum post age cannot
    be more than maximum post age", whatever the three priorities are. *)
Theorem check_post_age_conflict w :
  Py.gt (value (min_post_age w)) (value (max_post_age w)) = true ->
  save_settings_button (check_conflicting_values w) = false
  /\ error_label (check_conflicting_values w)
     = "Minimum post age cannot be more than maximum post age".
Proof.
  intros H. unfold check_conflicting_values; simpl. rewrite H. split; reflexivity.
Qed.

(** C2: when the post ages are in order but the priorities are not
    [low >= normal >= high], the check disables saving and reports
    "Priority values must be as follows: low >= normal >= high". *)
Theorem check_priority_conflict w :
  Py.le (value (min_post_age w)) (value (max_post_age w)) = true ->
  Py.ge (value (priority_low w)) (value (priority_normal w))
  && Py.ge (value (priority_normal w)) (value (priority_high w)) = false ->
  save_settings_button (check_conflicting_values w) = false
  /\ error_label (check_conflicting_values w)
     = "Priority values must be as follows: low >= normal >= high".
Proof.
  intros Hage Hprio. unfold check_conflicting_values; simpl.
  rewrite (le_not_gt _ _ Hage), Hprio. split; reflexivity.
Qed.

(** C3: when [min <= max] and [low >= normal >= high], the check leaves
    saving enabled and the error message empty. *)
Theorem check_consistent_ok w :
  Py.le (value (min_post_age w)) (value (max_post_age w)) = true ->
  Py.ge (value (priority_low w)) (value (priority_normal w)) = true ->
  Py.ge (value (priority_normal w)) (value (priority_high w)) = true ->
  save_settings_button (check_conflicting_values w) = true
  /\ error_label (check_conflicting_values w) = "".
Proof.
  intros Hage Hln Hnh. unfold check_conflicting_values; simpl.
  rewrite (le_not_gt _ _ Hage), Hln, Hnh. split; reflexivity.
Qed.

End Check.

(** The examples of the specification: 5 minutes over 3 minutes; low 50%
    under normal 60%; 5, 10, 10, 20, 30. *)

Lemma check_post_age_conflict_witness :
  let w := SettingsWidget.showing (Py.of_Z 5) (Py.of_Z 3)
             (Py.of_Z 10) (Py.of_Z 20) (Py.of_Z 30) in
  Py.gt (Qt.value (SettingsWidget.min_post_age w))
        (Qt.value (SettingsWidget.max_post_age w)) = true
  /\ SettingsWidget.save_settings_button (SettingsWidget.check_conflicting_values w) = false
  /\ SettingsWidget.error_label (SettingsWidget.check_conflicting_values w)
     = "Minimum post age cannot be more than maximum post age".
Proof.
  intros w. split; [ reflexivity | ].
  apply (check_post_age_conflict w). reflexivity.
Defined.

Lemma check_priority_conflict_witness :
  let w := SettingsWidget.showing (Py.of_Z 5) (Py.of_Z 10)
             (Py.of_Z 10) (Py.of_Z 60) (Py.of_Z 50) in
  Py.le (Qt.value (SettingsWidget.min_post_age w))
        (Qt.value (SettingsWidget.max_post_age w)) = true
  /\ SettingsWidget.save_settings_button (SettingsWidget.check_conflicting_values w) = false
  /\ SettingsWidget.error_label (SettingsWidget.check_conflicting_values w)
     = "Priority values must be as follows: low >= normal >= high".
Proof.
  intros w. split; [ reflexivity | ].
  apply (check_priority_conflict w); reflexivity.
Defined.

Lemma check_consistent_ok_witness :
  let w := SettingsWidget.showing (Py.of_Z 5) (Py.of_Z 10)
             (Py.of_Z 10) (Py.of_Z 20) (Py.of_Z 30) in
  Spec.consistent w = true
  /\ SettingsWidget.save_settings_button (SettingsWidget.check_conflicting_values w) = true
  /\ SettingsWidget.error_label (SettingsWidget.check_conflicting_values w) = "".
Proof.
  intros w. split; [ reflexivity | ].
  apply (check_consistent_ok w); reflexivity.
Defined.

(** ** The model: reading and writing a field *)

Section Model.

Import Qt SettingsModel.

Implicit Types (index : QModelIndex) (v : Py.float).

(** The five columns, one case each. *)
Lemma is_field_cases c :
  Spec.is_field c = true ->
  c = MIN_POST_AGE \/ c = MAX_POST_AGE \/ c = PRIORITY_HIGH
  \/ c = PRIORITY_NORMAL \/ c = PRIORITY_LOW.
Proof.
  unfold Spec.is_field, Spec.is_time, Spec.is_priority.
  rewrite !orb_true_iff, !Z.eqb_eq. tauto.
Qed.

Lemma not_field_cases c :
  Spec.is_field c = false ->
  c <> MIN_POST_AGE /\ c <> MAX_POST_AGE /\ c <> PRIORITY_HIGH
  /\ c <> PRIORITY_NORMAL /\ c <> PRIORITY_LOW.
Proof.
  unfold Spec.is_field, Spec.is_time, Spec.is_priority.
  rewrite !orb_false_iff, !Z.eqb_neq. tauto.
Qed.

(** Reading a field, in the vocabulary of the table of fields. *)
Lemma data_field config index :
  isValid index = true ->
  Spec.is_field (column index) = true ->
  data config index
  = Some (Spec.to_display (column index) (Spec.stored config (column index))).
Proof.
  intros Hv Hc. unfold data. rewrite Hv; simpl.
  destruct (is_field_cases _ Hc) as [E | [E | [E | [E | E]]]];
    rewrite E; reflexivity.
Qed.

(** The effects of writing a field. *)
Lemma setData_effects index v :
  isValid index = true ->
  Spec.is_field (column index) = true ->
  snd (setData index (Some v))
  = [ConfigSet (Spec.key (column index))
       (Py.str (Py.round v (Spec.precision (column index)))
        +:+ Spec.suffix (column index));
     DataChanged index index].
Proof.
  intros Hv Hc. unfold setData. rewrite Hv; simpl.
  destruct (is_field_cases _ Hc) as [E | [E | [E | [E | E]]]];
    rewrite E; reflexivity.
Qed.

(** C4: reading a field through a valid index gives the stored value in
    display units: for the two post ages the seconds of the store divided
    by [60.0], for the three priorities the fraction of the store
    multiplied by [100.0]. *)
Theorem data_converts_to_display config index :
  isValid index = true ->
  (Spec.is_time (column index) = true ->
   data config index
   = Some (Py.truediv (Config.get_seconds config (Spec.key (column index)))
             (Py.of_Z 60)))
  /\ (Spec.is_priority (column index) = true ->
      data config index
      = Some (Py.mul (Config.get_decimal config (Spec.key (column index)))
                (Py.of_Z 100))).
Proof.
  intros Hv. unfold data. rewrite Hv; simpl.
  unfold Spec.is_time, Spec.is_priority.
  rewrite !orb_true_iff, !Z.eqb_eq.
  split; intros H; decompose [or] H; clear H;
    match goal with E : column index = _ |- _ => rewrite E end; reflexivity.
Qed.

(** C5, as amended: writing a value [v] to a field rounds it to the
    field's precision, prints the rounded value followed by the display
    unit ([" minutes"] or ["%"]) and hands that text to the store under the
    field's key, then signals the change and answers [True]. *)
Theorem setData_writes_display_text index v :
  isValid index = true ->
  Spec.is_field (column index) = true ->
  setData index (Some v)
  = (true,
     [ConfigSet (Spec.key (column index))
        (Py.str (Py.round v (Spec.precision (column index)))
         +:+ Spec.suffix (column index));
      DataChanged index index]).
Proof.
  intros Hv Hc. unfold setData. rewrite Hv; simpl.
  destruct (is_field_cases _ Hc) as [E | [E | [E | [E | E]]]];
    rewrite E; reflexivity.
Qed.


(** C9: a write through an invalid index, of [None], or to a column that
    is none of the five fields answers [False], calls nothing on the store
    and emits no signal; whatever the store makes of the calls it receives,
    it is left as it was. *)
Theorem setData_rejects index value :
  isValid index = false \/ value = None \/ Spec.is_field (column index) = false ->
  setData index value = (false, [])
  /\ forall (A : Type) (apply : A -> effect -> A) (s : A),
       fold_left apply (snd (setData index value)) s = s.
Proof.
  intros H.
  assert (E : setData index value = (false, [])); [ | rewrite E; split; reflexivity ].
  unfold setData.
  destruct (isValid index); simpl; [ | reflexivity ].
  destruct value as [v | ]; [ | reflexivity ].
  destruct H as [H | [H | H]]; try discriminate.
  destruct (not_field_cases _ H) as (H0 & H1 & H2 & H3 & H4).
  apply Z.eqb_neq in H0, H1, H2, H3, H4.
  rewrite H0, H1, H2, H3, H4. reflexivity.
Qed.

End Model.

Lemma data_converts_to_display_witness :
  let config := {| Config.get_seconds := fun _ => Py.of_Z 300;
                   Config.get_decimal := fun _ => Py.of_decimal 5 1 |} in
  let index := SettingsModel.index 0 SettingsModel.MAX_POST_AGE in
  Qt.isValid index = true
  /\ (Spec.is_time (Qt.column index) = true ->
      SettingsModel.data config index
      = Some (Py.truediv (Config.get_seconds config (Spec.key (Qt.column index)))
                (Py.of_Z 60)))
  /\ (Spec.is_priority (Qt.column index) = true ->
      SettingsModel.data config index
      = Some (Py.mul (Config.get_decimal config (Spec.key (Qt.column index)))
                (Py.of_Z 100))).
Proof.
  intros config index. split; [ reflexivity | ].
  apply (data_converts_to_display config index). reflexivity.
Defined.

Lemma setData_writes_display_text_witness :
  let index := SettingsModel.index 0 SettingsModel.PRIORITY_NORMAL in
  let v := Py.of_decimal 123456789 7 in
  Qt.isValid index = true
  /\ SettingsModel.setData index (Some v)
     = (true,
        [ConfigSet (Spec.key (Qt.column index))
           (Py.str (Py.round v (Spec.precision (Qt.column index)))
            +:+ Spec.suffix (Qt.column index));
         DataChanged index index]).
Proof.
  intros index v. split; [ reflexivity | ].
  apply (setData_writes_display_text index v); reflexivity.
Defined.


Lemma setData_rejects_witness :
  let index := {| Qt.row := 0; Qt.column := 5; Qt.has_model := true |} in
  Qt.isValid index = true
  /\ SettingsModel.setData index (Some (Py.of_Z 5)) = (false, [])
  /\ forall (A : Type) (apply : A -> effect -> A) (s : A),
       fold_left apply (snd (SettingsModel.setData index (Some (Py.of_Z 5)))) s = s.
Proof.
  intros index. split; [ reflexivity | ].
  apply (setData_rejects index (Some (Py.of_Z 5))).
  right; right; reflexivity.
Defined.

(** C5, as stated, fails: written with 5 minutes, [min_post_age] is handed
    to the store as the text ["5.0 minutes"], whose number is the 5.0 of the
    display unit and not the 300.0 seconds of the stored unit. *)
Lemma setData_writes_stored_units_fails :
  let index := SettingsModel.index 0 SettingsModel.MIN_POST_AGE in
  let v := Py.of_Z 5 in
  snd (SettingsModel.setData index (Some v))
  = [ConfigSet "min_post_age" "5.0 minutes"; DataChanged index index]
  /\ Spec.to_stored (Qt.column index) (Py.round v (Spec.precision (Qt.column index)))
     = Py.of_Z 300
  /\ Spec.written_number (snd (SettingsModel.setData index (Some v)))
     <> Some (Spec.to_stored (Qt.column index)
               (Py.round v (Spec.precision (Qt.column index)))).
Proof.
  intros index v. split; [ | split ].
  - vm_compute. reflexivity.
  - vm_compute. reflexivity.
  - vm_compute. discriminate.
Defined.

(** ** The spin boxes keep their values in range *)

Section SpinBox.

Import Qt.

Implicit Types (sb : QDoubleSpinBox) (v : Py.float).

Lemma compare_refl (a : Py.float) :
  Py.is_nan a = false -> SFcompare a a = Some Eq.
Proof.
  destruct a as [s | s | | s m e]; simpl; try congruence.
  - destruct s; reflexivity.
  - intros _. f_equal.
    destruct s; rewrite Z.compare_refl, Pos.compare_cont_refl; reflexivity.
Qed.

Lemma le_refl (a : Py.float) : Py.is_nan a = false -> Py.le a a = true.
Proof. intros H. unfold Py.le, SFleb. rewrite (compare_refl a H). reflexivity. Qed.

(** Clamping lands between the two ends, whatever is clamped: a NaN too
    is replaced by the maximum. *)
Lemma bound_in_range sb v :
  Py.le (minimum sb) (maximum sb) = true ->
  Py.le (minimum sb) (bound sb v) = true
  /\ Py.le (bound sb v) (maximum sb) = true.
Proof.
  intros Hmm.
  pose proof (le_not_nan_l _ _ Hmm) as Nlo.
  pose proof (le_not_nan_r _ _ Hmm) as Nhi.
  pose proof (le_refl _ Nlo) as Hlo.
  pose proof (le_refl _ Nhi) as Hhi.
  unfold bound, variantCompare, SFeqb, SFltb.
  destruct (Py.is_nan v) eqn:Nv.
  - destruct v; try discriminate. simpl. split; assumption.
  - pose proof (compare_not_nan v (minimum sb) Nv Nlo) as C1.
    pose proof (compare_not_nan v (maximum sb) Nv Nhi) as C2.
    assert (Hmin : SFcompare v (minimum sb) <> Some Lt -> Py.le (minimum sb) v = true).
    { unfold Py.le, SFleb. rewrite (SFcompare_swap v (minimum sb)).
      destruct (SFcompare v (minimum sb)) as [[ | | ] | ]; simpl; congruence. }
    destruct (SFcompare v (minimum sb)) as [[ | | ] | ] eqn:E1; simpl;
      try congruence.
    + destruct (SFcompare v (maximum sb)) as [[ | | ] | ] eqn:E2; simpl;
        try congruence; split;
        solve [ assumption | apply Hmin; congruence
              | unfold Py.le, SFleb; rewrite E2; reflexivity ].
    + unfold Py.le, SFleb in Hmm.
      destruct (SFcompare (minimum sb) (maximum sb)) as [[ | | ] | ] eqn:E2;
        simpl; try discriminate; split;
        solve [ assumption | unfold Py.le, SFleb; rewrite E2; reflexivity ].
    + destruct (SFcompare v (maximum sb)) as [[ | | ] | ] eqn:E2; simpl;
        try congruence; split;
        solve [ assumption | apply Hmin; congruence
              | unfold Py.le, SFleb; rewrite E2; reflexivity ].
Qed.

Lemma setValue_in_range sb0 sb v :
  Py.le (minimum sb0) (maximum sb0) = true ->
  in_range sb0 sb -> in_range sb0 (setValue sb v).
Proof.
  intros Hmm (Hlo & Hhi & Hd & _ & _).
  unfold in_range, setValue; simpl.
  repeat split; try assumption;
    apply bound_in_range; rewrite Hlo, Hhi; assumption.
Qed.

Lemma MinutesWidget_in_range : in_range MinutesWidget.new MinutesWidget.new.
Proof. unfold in_range. repeat split; vm_compute; reflexivity. Qed.

Lemma priority_widget_in_range :
  in_range SettingsWidget.priority_widget SettingsWidget.priority_widget.
Proof. unfold in_range. repeat split; vm_compute; reflexivity. Qed.

Lemma MinutesWidget_ordered :
  Py.le (minimum MinutesWidget.new) (maximum MinutesWidget.new) = true.
Proof. vm_compute. reflexivity. Qed.

Lemma priority_widget_ordered :
  Py.le (minimum SettingsWidget.priority_widget)
        (maximum SettingsWidget.priority_widget) = true.
Proof. vm_compute. reflexivity. Qed.

End SpinBox.

(** ** The panel keeps its widgets in range *)

Section Panel.

Import Qt SettingsWidget.

Implicit Types (w : SettingsWidget.t) (sb : QDoubleSpinBox) (v : Py.float).

Lemma with_mapped_in_range w c sb v :
  widgets_in_range w -> mapped w c = Some sb ->
  widgets_in_range (with_mapped w c (setValue sb v)).
Proof.
  intros (H0 & H1 & H2 & H3 & H4) Hm.
  pose proof MinutesWidget_ordered as Om.
  pose proof priority_widget_ordered as Op.
  unfold mapped in Hm. unfold widgets_in_range, with_mapped; simpl.
  destruct (c =? SettingsModel.MIN_POST_AGE) eqn:E0;
    [ apply Z.eqb_eq in E0; subst c; injection Hm as <-; simpl;
      refine (conj _ (conj _ (conj _ (conj _ _))));
      first [ assumption | apply setValue_in_range; assumption ] | ].
  destruct (c =? SettingsModel.MAX_POST_AGE) eqn:E1;
    [ apply Z.eqb_eq in E1; subst c; injection Hm as <-; simpl;
      refine (conj _ (conj _ (conj _ (conj _ _))));
      first [ assumption | apply setValue_in_range; assumption ] | ].
  destruct (c =? SettingsModel.PRIORITY_HIGH) eqn:E2;
    [ apply Z.eqb_eq in E2; subst c; injection Hm as <-; simpl;
      refine (conj _ (conj _ (conj _ (conj _ _))));
      first [ assumption | apply setValue_in_range; assumption ] | ].
  destruct (c =? SettingsModel.PRIORITY_NORMAL) eqn:E3;
    [ apply Z.eqb_eq in E3; subst c; injection Hm as <-; simpl;
      refine (conj _ (conj _ (conj _ (conj _ _))));
      first [ assumption | apply setValue_in_range; assumption ] | ].
  destruct (c =? SettingsModel.PRIORITY_LOW) eqn:E4;
    [ apply Z.eqb_eq in E4; subst c; injection Hm as <-; simpl;
      refine (conj _ (conj _ (conj _ (conj _ _))));
      first [ assumption | apply setValue_in_range; assumption ] | ].
  discriminate.
Qed.

Lemma populate_in_range config w c :
  widgets_in_range w -> widgets_in_range (populate config w c).
Proof.
  intros H. unfold populate.
  destruct (mapped w c) as [sb | ] eqn:Hm; [ | assumption ].
  destruct (SettingsModel.data config _) as [v | ]; [ | assumption ].
  apply with_mapped_in_range; assumption.
Qed.

Lemma init_in_range config : widgets_in_range (init config).
Proof.
  unfold init. simpl fold_left.
  repeat apply populate_in_range.
  unfold widgets_in_range; simpl.
  pose proof MinutesWidget_in_range. pose proof priority_widget_in_range.
  tauto.
Qed.

Lemma check_in_range w :
  widgets_in_range w -> widgets_in_range (check_conflicting_values w).
Proof.
  unfold widgets_in_range.
  destruct (check_keeps_widgets w) as (-> & -> & -> & -> & ->). tauto.
Qed.

Lemma reachable_in_range config w :
  reachable config w -> widgets_in_range w.
Proof.
  induction 1 as [ | w w' _ IH Hstep ].
  - apply init_in_range.
  - destruct Hstep as [w c sb v Hm | w].
    + apply with_mapped_in_range; assumption.
    + apply check_in_range; assumption.
Qed.

End Panel.

(** ** What the widgets can show, and what the check makes of it *)

Section Widgets.

Import Qt SettingsWidget.

Implicit Types (w : SettingsWidget.t) (sb : QDoubleSpinBox).

Lemma MinutesWidget_range :
  minimum MinutesWidget.new = Py.of_decimal 1 1
  /\ maximum MinutesWidget.new = Py.of_decimal 10000 1.
Proof. split; vm_compute; reflexivity. Qed.

Lemma priority_widget_range :
  minimum priority_widget = Py.of_decimal 10 1
  /\ maximum priority_widget = Py.of_decimal 1000 1.
Proof. split; vm_compute; reflexivity. Qed.

Lemma in_range_minutes sb :
  in_range MinutesWidget.new sb ->
  Py.le (Py.of_decimal 1 1) (value sb) && Py.le (value sb) (Py.of_decimal 10000 1) = true.
Proof.
  intros (Hlo & Hhi & _ & H1 & H2).
  destruct MinutesWidget_range as [<- <-]. rewrite <- Hlo, <- Hhi, H1, H2. reflexivity.
Qed.

Lemma in_range_priority sb :
  in_range priority_widget sb ->
  Py.le (Py.of_decimal 10 1) (value sb) && Py.le (value sb) (Py.of_decimal 1000 1) = true.
Proof.
  intros (Hlo & Hhi & _ & H1 & H2).
  destruct priority_widget_range as [<- <-]. rewrite <- Hlo, <- Hhi, H1, H2. reflexivity.
Qed.

Lemma in_range_not_nan sb0 sb : in_range sb0 sb -> Py.is_nan (value sb) = false.
Proof. intros (_ & _ & _ & H & _). exact (le_not_nan_r _ _ H). Qed.

(** C8, as amended: whatever is done to the panel, each post age shown
    lies in [0.1 .. 1000.0] and each priority shown in [1.0 .. 100.0], the
    end points included. *)
Theorem widget_values_in_closed_range config w c sb :
  reachable config w ->
  mapped w c = Some sb ->
  Spec.in_closed_range c (value sb) = true.
Proof.
  intros Hr Hm. destruct (reachable_in_range config w Hr) as (H0 & H1 & H2 & H3 & H4).
  unfold mapped in Hm. unfold Spec.in_closed_range, Spec.is_time.
  destruct (c =? SettingsModel.MIN_POST_AGE) eqn:E0;
    [ injection Hm as <-; simpl; apply in_range_minutes; assumption | ].
  destruct (c =? SettingsModel.MAX_POST_AGE) eqn:E1;
    [ injection Hm as <-; simpl; apply in_range_minutes; assumption | ].
  simpl.
  destruct (c =? SettingsModel.PRIORITY_HIGH);
    [ injection Hm as <-; apply in_range_priority; assumption | ].
  destruct (c =? SettingsModel.PRIORITY_NORMAL);
    [ injection Hm as <-; apply in_range_priority; assumption | ].
  destruct (c =? SettingsModel.PRIORITY_LOW);
    [ injection Hm as <-; apply in_range_priority; assumption | ].
  discriminate.
Qed.

(** C10: after the check has run on a panel, saving is enabled exactly
    when the values shown satisfy [min <= max] and [low >= normal >= high],
    and the error message is empty exactly when saving is enabled. *)
Theorem check_reflects_consistency config w :
  reachable config w ->
  (save_settings_button (check_conflicting_values w) = true
   <-> Spec.consistent (check_conflicting_values w) = true)
  /\ (error_label (check_conflicting_values w) = ""
      <-> save_settings_button (check_conflicting_values w) = true).
Proof.
  intros Hr. destruct (reachable_in_range config w Hr) as (H0 & H1 & _).
  apply in_range_not_nan in H0, H1.
  unfold Spec.consistent.
  destruct (check_keeps_widgets w) as (-> & -> & -> & -> & ->).
  unfold check_conflicting_values; simpl.
  destruct (Py.gt (value (min_post_age w)) (value (max_post_age w))) eqn:G.
  - rewrite (gt_not_le _ _ G). simpl. split; split; discriminate.
  - rewrite (not_gt_le _ _ H0 H1 G). simpl.
    destruct (Py.ge (value (priority_low w)) (value (priority_normal w))
              && Py.ge (value (priority_normal w)) (value (priority_high w)));
      simpl; split; split; first [ reflexivity | discriminate ].
Qed.

End Widgets.

(** A panel opened on a configuration of 6 seconds and 50 percent
    throughout. *)

Lemma widget_values_in_closed_range_witness :
  let config := {| Config.get_seconds := fun _ => Py.of_Z 6;
                   Config.get_decimal := fun _ => Py.of_decimal 5 1 |} in
  let w := SettingsWidget.init config in
  SettingsWidget.mapped w SettingsModel.MIN_POST_AGE
  = Some (SettingsWidget.min_post_age w)
  /\ Spec.in_closed_range SettingsModel.MIN_POST_AGE
       (Qt.value (SettingsWidget.min_post_age w)) = true.
Proof.
  intros config w. split; [ reflexivity | ].
  apply (widget_values_in_closed_range config w SettingsModel.MIN_POST_AGE).
  - apply SettingsWidget.reach_init.
  - reflexivity.
Defined.

(** C8, as stated, fails: a panel opened on a minimum post age of 6 seconds
    shows 0.1 minutes, the lower end of the spin box's range, which the
    interval [(0.1, 1000.0]] leaves out. *)
Lemma widget_value_at_lower_end :
  let config := {| Config.get_seconds := fun _ => Py.of_Z 6;
                   Config.get_decimal := fun _ => Py.of_decimal 5 1 |} in
  let w := SettingsWidget.init config in
  SettingsWidget.reachable config w
  /\ SettingsWidget.mapped w SettingsModel.MIN_POST_AGE
     = Some (SettingsWidget.min_post_age w)
  /\ Qt.value (SettingsWidget.min_post_age w) = Py.of_decimal 1 1
  /\ Spec.in_declared_range SettingsModel.MIN_POST_AGE
       (Qt.value (SettingsWidget.min_post_age w)) = false.
Proof.
  intros config w. split; [ apply SettingsWidget.reach_init | ].
  split; [ reflexivity | ]. split; vm_compute; reflexivity.
Defined.

Lemma check_reflects_consistency_witness :
  let config := {| Config.get_seconds := fun _ => Py.of_Z 600;
                   Config.get_decimal := fun _ => Py.of_decimal 5 1 |} in
  let w := SettingsWidget.with_mapped (SettingsWidget.init config)
             SettingsModel.PRIORITY_LOW
             (Qt.setValue (SettingsWidget.priority_low (SettingsWidget.init config))
                (Py.of_Z 30)) in
  SettingsWidget.save_settings_button (SettingsWidget.check_conflicting_values w) = false
  /\ ((SettingsWidget.save_settings_button (SettingsWidget.check_conflicting_values w) = true
       <-> Spec.consistent (SettingsWidget.check_conflicting_values w) = true)
      /\ (SettingsWidget.error_label (SettingsWidget.check_conflicting_values w) = ""
          <-> SettingsWidget.save_settings_button
                (SettingsWidget.check_conflicting_values w) = true)).
Proof.
  intros config w. split; [ vm_compute; reflexivity | ].
  apply (check_reflects_consistency config w).
  eapply SettingsWidget.reach_step.
  - apply SettingsWidget.reach_init.
  - apply SettingsWidget.step_value. reflexivity.
Defined.

(** ** Writing a field, then reading it back from the store *)

Section RoundTrip.

Import Qt SettingsModel.

Implicit Types (s : gmap string string) (index : QModelIndex) (v : Py.float).







End RoundTrip.

(** ** No fraction reads back as 7 percent

    The product of a double by [100.0] is the exact product rounded to 53
    bits.  The lemmas below bound the error of that rounding and conclude
    that no double times [100.0] is [7.0]: the doubles next to 0.07 give
    6.999999999999999 and 7.000000000000001. *)

Section Rounding.
















End Rounding.



(** The same for a post age: 0.12 minutes is held as 7.199999999999999
    seconds and read back as 0.11999999999999998 minutes. *)
Example read_after_write_differs_minutes :
  let index := SettingsModel.index 0 SettingsModel.MIN_POST_AGE in
  let v := Py.of_decimal 12 2 in
  let s := Store.run ∅ (snd (SettingsModel.setData index (Some v))) in
  s !! "min_post_age" = Some "0.12 minutes"
  /\ Py.str (Store.get_seconds s "min_post_age") = "7.199999999999999"
  /\ option_map Py.str (SettingsModel.data (Store.config s) index)
     = Some "0.11999999999999998".
Proof.
  intros index v s. repeat split; vm_compute; reflexivity.
Qed.

(** * Further properties of the model and of the panel *)

(** ** Which cells the model serves *)

Section Cells.

Import Qt SettingsModel.

Implicit Types (index : QModelIndex) (v : Py.float).

Lemma setData_field_result index v :
  isValid index = true ->
  Spec.is_field (column index) = true ->
  fst (setData index (Some v)) = true.
Proof.
  intros Hv Hc. unfold setData. rewrite Hv; simpl.
  destruct (is_field_cases _ Hc) as [E | [E | [E | [E | E]]]];
    rewrite E; reflexivity.
Qed.

Lemma is_field_columns c : Spec.is_field c = true <-> 0 <= c < columnCount.
Proof.
  unfold Spec.is_field, Spec.is_time, Spec.is_priority, columnCount, TOTAL_FIELDS,
    MIN_POST_AGE, MAX_POST_AGE, PRIORITY_HIGH, PRIORITY_NORMAL, PRIORITY_LOW.
  rewrite !orb_true_iff, !Z.eqb_eq. lia.
Qed.

Lemma isValid_column index : isValid index = true -> 0 <= column index.
Proof.
  unfold isValid. rewrite !andb_true_iff, !Z.leb_le. tauto.
Qed.

(** X1: [data] answers [None] exactly for an invalid index and for a
    column from [columnCount] on; every valid index below [columnCount] is
    served, whatever its row. *)
Theorem data_none_iff config index :
  data config index = None
  <-> isValid index = false \/ columnCount <= column index.
Proof.
  destruct (isValid index) eqn:Hv.
  - pose proof (isValid_column index Hv) as H0.
    destruct (Spec.is_field (column index)) eqn:Hc.
    + rewrite (data_field config index Hv Hc).
      apply is_field_columns in Hc. split; [ discriminate | ].
      intros [H | H]; [ discriminate | lia ].
    + assert (Hn : ~ (0 <= column index < columnCount)).
      { rewrite <- is_field_columns. congruence. }
      destruct (not_field_cases _ Hc) as (E0 & E1 & E2 & E3 & E4).
      apply Z.eqb_neq in E0, E1, E2, E3, E4.
      unfold data. rewrite Hv; simpl. rewrite E0, E1, E2, E3, E4.
      split; [ intros _; right; lia | reflexivity ].
  - unfold data. rewrite Hv; simpl. split; [ left | ]; reflexivity.
Qed.

(** X2: [setData] accepts a value exactly in the cells [data] serves: a
    write of a number succeeds if and only if a read of the same index
    gives a value. *)
Theorem setData_accepts_where_data_serves config index v :
  fst (setData index (Some v)) = true <-> data config index <> None.
Proof.
  destruct (isValid index) eqn:Hv.
  - destruct (Spec.is_field (column index)) eqn:Hc.
    + rewrite (data_field config index Hv Hc).
      rewrite (setData_field_result index v Hv Hc).
      split; [ discriminate | reflexivity ].
    + destruct (not_field_cases _ Hc) as (E0 & E1 & E2 & E3 & E4).
      apply Z.eqb_neq in E0, E1, E2, E3, E4.
      unfold setData, data. rewrite Hv; simpl. rewrite E0, E1, E2, E3, E4.
      simpl. split; [ discriminate | congruence ].
  - unfold setData, data. rewrite Hv; simpl. split; [ discriminate | congruence ].
Qed.

End Cells.

(** ** One field, one key *)

Section Keys.

Import Qt SettingsModel.

Context {A : Type} (o : ConfigObject.ops A).

Implicit Types (s : A) (index : QModelIndex) (value : option Py.float).

Lemma key_apart c c' :
  Spec.is_field c = true -> Spec.is_field c' = true -> c <> c' ->
  Spec.key c <> Spec.key c'.
Proof.
  intros Hc Hc' Hne.
  destruct (is_field_cases _ Hc) as [E | [E | [E | [E | E]]]];
    destruct (is_field_cases _ Hc') as [E' | [E' | [E' | [E' | E']]]];
    subst c c'; try congruence; vm_compute; discriminate.
Qed.

(** No effects, or one [set] under the key of the column. *)
Lemma setData_run s index value :
  ConfigObject.run o s (snd (setData index value)) = s
  \/ (Spec.is_field (column index) = true
      /\ exists text,
           ConfigObject.run o s (snd (setData index value))
           = ConfigObject.set o s (Spec.key (column index)) text).
Proof.
  destruct (isValid index) eqn:Hv;
    [ | left; unfold setData; rewrite Hv; reflexivity ].
  destruct value as [v | ];
    [ | left; unfold setData; rewrite Hv; reflexivity ].
  destruct (Spec.is_field (column index)) eqn:Hc.
  - right. split; [ reflexivity | ].
    rewrite (setData_effects index v Hv Hc). eexists. reflexivity.
  - left. destruct (not_field_cases _ Hc) as (E0 & E1 & E2 & E3 & E4).
    apply Z.eqb_neq in E0, E1, E2, E3, E4.
    unfold setData. rewrite Hv; simpl. rewrite E0, E1, E2, E3, E4. reflexivity.
Qed.

(** X3: writing one field does not change what any other field reads:
    each column is written under its own key, and read under that key
    only.  This holds of every configuration object in which setting one
    key leaves the others alone. *)
Theorem setData_leaves_other_fields s index index' value :
  ConfigObject.keys_apart o ->
  column index <> column index' ->
  data (ConfigObject.view o (ConfigObject.run o s (snd (setData index value)))) index'
  = data (ConfigObject.view o s) index'.
Proof.
  intros Hk Hne.
  destruct (setData_run s index value) as [-> | (Hc & text & ->)];
    [ reflexivity | ].
  destruct (isValid index') eqn:Hv';
    [ | unfold data; rewrite Hv'; reflexivity ].
  destruct (Spec.is_field (column index')) eqn:Hc'.
  - rewrite !(data_field _ index' Hv' Hc'). f_equal. f_equal.
    destruct (Hk s _ _ text (key_apart _ _ Hc Hc' Hne)) as [Hs Hd].
    unfold Spec.stored, ConfigObject.view; simpl.
    destruct (Spec.is_time (column index')); assumption.
  - destruct (not_field_cases _ Hc') as (E0 & E1 & E2 & E3 & E4).
    apply Z.eqb_neq in E0, E1, E2, E3, E4.
    unfold data. rewrite Hv'; simpl. rewrite E0, E1, E2, E3, E4. reflexivity.
Qed.

End Keys.

Lemma store_keys_apart : ConfigObject.keys_apart ConfigObject.of_store.
Proof.
  intros s k k' v Hne. unfold ConfigObject.of_store; simpl.
  unfold Store.get_seconds, Store.get_decimal, Store.set.
  rewrite lookup_insert_ne by assumption. split; reflexivity.
Qed.

Lemma setData_leaves_other_fields_witness :
  let s := Store.set ∅ "priority_high" "10.0%" in
  let index := SettingsModel.index 0 SettingsModel.MIN_POST_AGE in
  let index' := SettingsModel.index 0 SettingsModel.PRIORITY_HIGH in
  SettingsModel.data (ConfigObject.view ConfigObject.of_store s) index'
  = Some (Py.of_Z 10)
  /\ SettingsModel.data
       (ConfigObject.view ConfigObject.of_store
          (ConfigObject.run ConfigObject.of_store s
             (snd (SettingsModel.setData index (Some (Py.of_Z 5)))))) index'
     = SettingsModel.data (ConfigObject.view ConfigObject.of_store s) index'.
Proof.
  intros s index index'. split; [ vm_compute; reflexivity | ].
  apply (setData_leaves_other_fields ConfigObject.of_store s index index').
  - exact store_keys_apart.
  - vm_compute. discriminate.
Defined.

(** ** The panel as it opens *)

Section Opening.

Import Qt SettingsWidget.

Implicit Types (w : SettingsWidget.t) (sb : QDoubleSpinBox).

Lemma mapped_same w c sb sb' :
  mapped w c = Some sb -> mapped (with_mapped w c sb') c = Some sb'.
Proof.
  unfold mapped, with_mapped; simpl.
  destruct (c =? SettingsModel.MIN_POST_AGE); [ reflexivity | ].
  destruct (c =? SettingsModel.MAX_POST_AGE); [ reflexivity | ].
  destruct (c =? SettingsModel.PRIORITY_HIGH); [ reflexivity | ].
  destruct (c =? SettingsModel.PRIORITY_NORMAL); [ reflexivity | ].
  destruct (c =? SettingsModel.PRIORITY_LOW); [ reflexivity | discriminate ].
Qed.

Lemma mapped_other w c c' sb' :
  c <> c' -> mapped (with_mapped w c sb') c' = mapped w c'.
Proof.
  intros Hne. unfold mapped, with_mapped; simpl.
  destruct (Z.eqb_spec c' SettingsModel.MIN_POST_AGE) as [E | _];
    [ destruct (Z.eqb_spec c SettingsModel.MIN_POST_AGE); [ congruence | reflexivity ] | ].
  destruct (Z.eqb_spec c' SettingsModel.MAX_POST_AGE) as [E | _];
    [ destruct (Z.eqb_spec c SettingsModel.MAX_POST_AGE); [ congruence | reflexivity ] | ].
  destruct (Z.eqb_spec c' SettingsModel.PRIORITY_HIGH) as [E | _];
    [ destruct (Z.eqb_spec c SettingsModel.PRIORITY_HIGH); [ congruence | reflexivity ] | ].
  destruct (Z.eqb_spec c' SettingsModel.PRIORITY_NORMAL) as [E | _];
    [ destruct (Z.eqb_spec c SettingsModel.PRIORITY_NORMAL); [ congruence | reflexivity ] | ].
  destruct (Z.eqb_spec c' SettingsModel.PRIORITY_LOW) as [E | _];
    [ destruct (Z.eqb_spec c SettingsModel.PRIORITY_LOW); [ congruence | reflexivity ] | ].
  reflexivity.
Qed.

Lemma index_field c :
  Spec.is_field c = true ->
  isValid (SettingsModel.index 0 c) = true
  /\ column (SettingsModel.index 0 c) = c.
Proof.
  intros Hc.
  destruct (is_field_cases _ Hc) as [E | [E | [E | [E | E]]]];
    subst c; split; reflexivity.
Qed.

(** What the mapper shows for a column of the model. *)
Lemma populate_field config w c sb :
  Spec.is_field c = true ->
  mapped w c = Some sb ->
  populate config w c
  = with_mapped w c (setValue sb (Spec.to_display c (Spec.stored config c))).
Proof.
  intros Hc Hm. destruct (index_field c Hc) as [Hv Hcol].
  unfold populate. rewrite Hm.
  rewrite (data_field config _ Hv). { rewrite Hcol. reflexivity. }
  rewrite Hcol. exact Hc.
Qed.

Lemma populate_keeps_state config w c :
  error_label (populate config w c) = error_label w
  /\ save_settings_button (populate config w c) = save_settings_button w.
Proof.
  unfold populate.
  destruct (mapped w c); [ | split; reflexivity ].
  destruct (SettingsModel.data config _); split; reflexivity.
Qed.

Lemma populate_other config w c c' :
  c <> c' -> mapped (populate config w c) c' = mapped w c'.
Proof.
  intros Hne. unfold populate.
  destruct (mapped w c); [ | reflexivity ].
  destruct (SettingsModel.data config _); [ | reflexivity ].
  apply mapped_other. assumption.
Qed.

Lemma populate_same config w c sb :
  Spec.is_field c = true ->
  mapped w c = Some sb ->
  mapped (populate config w c) c
  = Some (setValue sb (Spec.to_display c (Spec.stored config c))).
Proof.
  intros Hc Hm. rewrite (populate_field config w c sb Hc Hm).
  apply (mapped_same w c sb). assumption.
Qed.

(** X4: a panel opens with each spin box showing the value of its own
    column of the model: the configured value in display units, rounded to
    the decimals of the spin box and clamped into its range. *)
Theorem init_shows_configuration config c sb :
  mapped (init config) c = Some sb ->
  sb = setValue (if Spec.is_time c then MinutesWidget.new else priority_widget)
         (Spec.to_display c (Spec.stored config c)).
Proof.
  unfold init. cbv [fold_left].
  set (w0 := {| min_post_age := MinutesWidget.new;
                max_post_age := MinutesWidget.new;
                priority_high := priority_widget;
                priority_normal := priority_widget;
                priority_low := priority_widget;
                error_label := "";
                save_settings_button := true |}).
  assert (H0 : forall j, mapped w0 j
               = if Spec.is_field j
                 then Some (if Spec.is_time j then MinutesWidget.new else priority_widget)
                 else None).
  { intros j. unfold mapped, Spec.is_field, Spec.is_time, Spec.is_priority; simpl.
    destruct (j =? SettingsModel.MIN_POST_AGE); [ reflexivity | ].
    destruct (j =? SettingsModel.MAX_POST_AGE); [ reflexivity | ].
    destruct (j =? SettingsModel.PRIORITY_HIGH); [ reflexivity | ].
    destruct (j =? SettingsModel.PRIORITY_NORMAL); [ reflexivity | ].
    destruct (j =? SettingsModel.PRIORITY_LOW); reflexivity. }
  intros Hm.
  assert (Hc : Spec.is_field c = true).
  { destruct (Spec.is_field c) eqn:Hc; [ reflexivity | exfalso ].
    destruct (not_field_cases _ Hc) as (E0 & E1 & E2 & E3 & E4).
    do 5 (rewrite populate_other in Hm by congruence).
    rewrite H0, Hc in Hm. discriminate. }
  pose proof (H0 c) as Hw; rewrite Hc in Hw.
  assert (Hne : forall a b : Z, (a =? b) = false -> a <> b)
    by (intros a b; apply Z.eqb_neq).
  destruct (is_field_cases _ Hc) as [E | [E | [E | [E | E]]]]; subst c.
  - do 4 (rewrite populate_other in Hm by (apply Hne; reflexivity)).
    rewrite (populate_same _ _ _ _ Hc Hw) in Hm. injection Hm as <-; reflexivity.
  - do 3 (rewrite populate_other in Hm by (apply Hne; reflexivity)).
    rewrite (populate_same _ _ _ _ Hc) in Hm
      by (rewrite populate_other by (apply Hne; reflexivity); exact Hw).
    injection Hm as <-; reflexivity.
  - do 2 (rewrite populate_other in Hm by (apply Hne; reflexivity)).
    rewrite (populate_same _ _ _ _ Hc) in Hm
      by (do 2 (rewrite populate_other by (apply Hne; reflexivity)); exact Hw).
    injection Hm as <-; reflexivity.
  - rewrite populate_other in Hm by (apply Hne; reflexivity).
    rewrite (populate_same _ _ _ _ Hc) in Hm
      by (do 3 (rewrite populate_other by (apply Hne; reflexivity)); exact Hw).
    injection Hm as <-; reflexivity.
  - rewrite (populate_same _ _ _ _ Hc) in Hm
      by (do 4 (rewrite populate_other by (apply Hne; reflexivity)); exact Hw).
    injection Hm as <-; reflexivity.
Qed.

(** Away from NaN, the check disables saving on conflicting values. *)
Lemma check_disables_conflict w :
  Py.is_nan (value (min_post_age w)) = false ->
  Py.is_nan (value (max_post_age w)) = false ->
  Spec.consistent w = false ->
  save_settings_button (check_conflicting_values w) = false.
Proof.
  intros N0 N1 Hc. unfold Spec.consistent in Hc.
  unfold check_conflicting_values; simpl.
  destruct (Py.gt (value (min_post_age w)) (value (max_post_age w))) eqn:G;
    [ reflexivity | ].
  rewrite (not_gt_le _ _ N0 N1 G) in Hc. simpl in Hc. rewrite Hc. reflexivity.
Qed.

Lemma init_keeps_state config :
  error_label (init config) = ""
  /\ save_settings_button (init config) = true.
Proof.
  unfold init. cbv [fold_left].
  repeat match goal with
         | |- context [populate config ?w ?c] =>
             destruct (populate_keeps_state config w c) as [-> ->]
         end.
  split; reflexivity.
Qed.

(** X5: a panel opens with saving enabled and no message, whatever the
    configuration holds: the check does not run before the first change of
    the model, so a conflicting configuration is not reported on opening. *)
Theorem init_is_not_checked config :
  save_settings_button (init config) = true
  /\ error_label (init config) = ""
  /\ (Spec.consistent (init config) = false ->
      save_settings_button (check_conflicting_values (init config)) = false).
Proof.
  destruct (init_keeps_state config) as [Hl Hb].
  split; [ assumption | split; [ assumption | ] ].
  destruct (init_in_range config) as (H0 & H1 & _).
  apply check_disables_conflict;
    [ exact (in_range_not_nan _ _ H0) | exact (in_range_not_nan _ _ H1) ].
Qed.

End Opening.

(** A configuration of 10 minutes at least and 5 minutes at most. *)
Lemma init_is_not_checked_witness :
  let config :=
    {| Config.get_seconds :=
         fun key => if String.eqb key "min_post_age" then Py.of_Z 600 else Py.of_Z 300;
       Config.get_decimal := fun _ => Py.of_decimal 5 1 |} in
  Spec.consistent (SettingsWidget.init config) = false
  /\ (SettingsWidget.save_settings_button (SettingsWidget.init config) = true
      /\ SettingsWidget.error_label (SettingsWidget.init config) = ""
      /\ (Spec.consistent (SettingsWidget.init config) = false ->
          SettingsWidget.save_settings_button
            (SettingsWidget.check_conflicting_values (SettingsWidget.init config))
          = false)).
Proof.
  intros config. split; [ vm_compute; reflexivity | ].
  exact (init_is_not_checked config).
Defined.


(** ** More on the check *)

Section CheckMore.

Import Qt SettingsWidget.

Implicit Types (w : SettingsWidget.t) (a b c : Py.float).

(** X6: the outcome of the check depends on the five values shown only: a
    message left by an earlier failure does not survive, and running the
    check again changes nothing. *)
Theorem check_forgets_earlier_outcome w reason :
  check_conflicting_values (disable_saving w reason) = check_conflicting_values w
  /\ check_conflicting_values (check_conflicting_values w)
     = check_conflicting_values w.
Proof.
  split; [ reflexivity | ].
  unfold check_conflicting_values; simpl.
  destruct (Py.gt (value (min_post_age w)) (value (max_post_age w))) eqn:G;
    simpl; [ rewrite G; reflexivity | ].
  destruct (negb (Py.ge (value (priority_low w)) (value (priority_normal w))
                  && Py.ge (value (priority_normal w)) (value (priority_high w))))
    eqn:P; simpl; rewrite G, P; reflexivity.
Qed.


Lemma le_trans a b c : Py.le a b = true -> Py.le b c = true -> Py.le a c = true.
Proof.
  unfold Py.le, SFleb.
  destruct a as [s1 | s1 | | s1 m1 e1], b as [s2 | s2 | | s2 m2 e2],
    c as [s3 | s3 | | s3 m3 e3]; simpl;
    try discriminate; try reflexivity;
    try (destruct s1, s2, s3; simpl; try discriminate; reflexivity);
    try (destruct s1, s2; simpl; try discriminate; reflexivity);
    try (destruct s1, s3; simpl; try discriminate; reflexivity);
    try (destruct s2, s3; simpl; try discriminate; reflexivity);
    try (destruct s1; simpl; try discriminate; reflexivity);
    try (destruct s2; simpl; try discriminate; reflexivity);
    try (destruct s3; simpl; try discriminate; reflexivity).
  rewrite !Pos.compare_cont_spec; simpl.
  destruct s1, s2, s3; simpl; try discriminate; try reflexivity;
    destruct (Z.compare_spec e1 e2), (Z.compare_spec e2 e3),
      (Z.compare_spec e1 e3); simpl; try discriminate; try reflexivity; try lia;
    destruct (Pos.compare_spec m1 m2), (Pos.compare_spec m2 m3),
      (Pos.compare_spec m1 m3); simpl; try discriminate; try reflexivity; lia.
Qed.

(** X8: when the check leaves saving enabled, the three priorities are in
    order end to end: low is at least high, although the source compares
    neighbours only. *)
Theorem check_enabled_low_ge_high w :
  save_settings_button (check_conflicting_values w) = true ->
  Py.ge (value (priority_low w)) (value (priority_high w)) = true.
Proof.
  unfold check_conflicting_values; simpl.
  destruct (Py.gt _ _); simpl; [ discriminate | ].
  destruct (Py.ge (value (priority_low w)) (value (priority_normal w))) eqn:H1;
    simpl; [ | discriminate ].
  destruct (Py.ge (value (priority_normal w)) (value (priority_high w))) eqn:H2;
    simpl; [ | discriminate ].
  intros _. unfold Py.ge in *. exact (le_trans _ _ _ H2 H1).
Qed.

(** X9: a NaN among the priorities always disables saving. *)
Theorem check_nan_priority_disables w :
  Py.is_nan (value (priority_low w)) = true
  \/ Py.is_nan (value (priority_normal w)) = true
  \/ Py.is_nan (value (priority_high w)) = true ->
  save_settings_button (check_conflicting_values w) = false.
Proof.
  intros H. unfold check_conflicting_values; simpl.
  destruct (Py.gt _ _); simpl; [ reflexivity | ].
  assert (E : Py.ge (value (priority_low w)) (value (priority_normal w))
              && Py.ge (value (priority_normal w)) (value (priority_high w)) = false).
  { unfold Py.ge. apply andb_false_iff.
    destruct (SFleb (value (priority_normal w)) (value (priority_low w))) eqn:H1;
      [ | left; reflexivity ].
    destruct (SFleb (value (priority_high w)) (value (priority_normal w))) eqn:H2;
      [ | right; reflexivity ].
    pose proof (le_not_nan_l _ _ H1). pose proof (le_not_nan_r _ _ H1).
    pose proof (le_not_nan_l _ _ H2). destruct H as [H | [H | H]]; congruence. }
  rewrite E. reflexivity.
Qed.

(** X10: a NaN post age is not caught: the first test does not fire, and
    the priorities alone decide whether saving is enabled. *)
Theorem check_nan_post_age_passes w :
  Py.is_nan (value (min_post_age w)) = true
  \/ Py.is_nan (value (max_post_age w)) = true ->
  save_settings_button (check_conflicting_values w)
  = Py.ge (value (priority_low w)) (value (priority_normal w))
    && Py.ge (value (priority_normal w)) (value (priority_high w))
  /\ error_label (check_conflicting_values w)
     <> "Minimum post age cannot be more than maximum post age".
Proof.
  intros H.
  assert (G : Py.gt (value (min_post_age w)) (value (max_post_age w)) = false).
  { unfold Py.gt, SFltb.
    destruct H as [H | H];
      destruct (value (min_post_age w)), (value (max_post_age w));
      try discriminate; reflexivity. }
  unfold check_conflicting_values; simpl. rewrite G.
  destruct (Py.ge (value (priority_low w)) (value (priority_normal w))
            && Py.ge (value (priority_normal w)) (value (priority_high w)));
    simpl; split; first [ reflexivity | discriminate ].
Qed.

End CheckMore.


Lemma init_shows_configuration_witness :
  let config := {| Config.get_seconds := fun _ => Py.of_Z 90000;
                   Config.get_decimal := fun _ => Py.of_decimal 123456 6 |} in
  let w := SettingsWidget.init config in
  Py.str (Qt.value (SettingsWidget.max_post_age w)) = "1000.0"
  /\ Py.str (Qt.value (SettingsWidget.priority_low w)) = "12.3456"
  /\ SettingsWidget.max_post_age w
     = Qt.setValue
         (if Spec.is_time SettingsModel.MAX_POST_AGE
          then MinutesWidget.new else SettingsWidget.priority_widget)
         (Spec.to_display SettingsModel.MAX_POST_AGE
            (Spec.stored config SettingsModel.MAX_POST_AGE)).
Proof.
  intros config w.
  split; [ vm_compute; reflexivity | ].
  split; [ vm_compute; reflexivity | ].
  apply (init_shows_configuration config SettingsModel.MAX_POST_AGE).
  reflexivity.
Defined.

Lemma check_enabled_low_ge_high_witness :
  let w := SettingsWidget.showing (Py.of_Z 5) (Py.of_Z 10)
             (Py.of_Z 10) (Py.of_Z 20) (Py.of_Z 30) in
  SettingsWidget.save_settings_button (SettingsWidget.check_conflicting_values w) = true
  /\ Py.ge (Qt.value (SettingsWidget.priority_low w))
           (Qt.value (SettingsWidget.priority_high w)) = true.
Proof.
  intros w. split; [ reflexivity | ].
  apply (check_enabled_low_ge_high w). reflexivity.
Defined.

Lemma check_nan_priority_disables_witness :
  let w := SettingsWidget.showing (Py.of_Z 5) (Py.of_Z 10)
             (Py.of_Z 10) S754_nan (Py.of_Z 30) in
  SettingsWidget.save_settings_button (SettingsWidget.check_conflicting_values w) = false.
Proof.
  intros w. apply (check_nan_priority_disables w). right; left; reflexivity.
Defined.

Lemma check_nan_post_age_passes_witness :
  let w := SettingsWidget.showing S754_nan (Py.of_Z 10)
             (Py.of_Z 10) (Py.of_Z 20) (Py.of_Z 30) in
  Spec.consistent w = false
  /\ SettingsWidget.save_settings_button (SettingsWidget.check_conflicting_values w) = true
  /\ (SettingsWidget.save_settings_button (SettingsWidget.check_conflicting_values w)
      = Py.ge (Qt.value (SettingsWidget.priority_low w))
              (Qt.value (SettingsWidget.priority_normal w))
        && Py.ge (Qt.value (SettingsWidget.priority_normal w))
                 (Qt.value (SettingsWidget.priority_high w))
      /\ SettingsWidget.error_label (SettingsWidget.check_conflicting_values w)
         <> "Minimum post age cannot be more than maximum post age").
Proof.
  intros w. split; [ reflexivity | ]. split; [ reflexivity | ].
  apply (check_nan_post_age_passes w). left; reflexivity.
Defined.

(** ** The model and the widgets agree *)

Section Agreement.

Import Qt SettingsModel SettingsWidget.

Implicit Types (w : SettingsWidget.t) (sb : QDoubleSpinBox) (v : Py.float).

Lemma mapped_is_field w c sb : mapped w c = Some sb -> Spec.is_field c = true.
Proof.
  intros Hm. destruct (Spec.is_field c) eqn:Hc; [ reflexivity | exfalso ].
  destruct (not_field_cases _ Hc) as (E0 & E1 & E2 & E3 & E4).
  apply Z.eqb_neq in E0, E1, E2, E3, E4.
  unfold mapped in Hm. rewrite E0, E1, E2, E3, E4 in Hm. discriminate.
Qed.

Lemma mapped_decimals config w c sb :
  reachable config w -> mapped w c = Some sb -> decimals sb = Spec.precision c.
Proof.
  intros Hr Hm.
  destruct (reachable_in_range config w Hr) as (H0 & H1 & H2 & H3 & H4).
  assert (Dm : decimals MinutesWidget.new = 2%N) by (vm_compute; reflexivity).
  assert (Dp : decimals priority_widget = 4%N) by (vm_compute; reflexivity).
  destruct H0 as (_ & _ & D0 & _), H1 as (_ & _ & D1 & _), H2 as (_ & _ & D2 & _),
    H3 as (_ & _ & D3 & _), H4 as (_ & _ & D4 & _).
  unfold mapped in Hm.
  destruct (Z.eqb_spec c MIN_POST_AGE) as [-> | _];
    [ injection Hm as <-; rewrite D0, Dm; reflexivity | ].
  destruct (Z.eqb_spec c MAX_POST_AGE) as [-> | _];
    [ injection Hm as <-; rewrite D1, Dm; reflexivity | ].
  destruct (Z.eqb_spec c PRIORITY_HIGH) as [-> | _];
    [ injection Hm as <-; rewrite D2, Dp; reflexivity | ].
  destruct (Z.eqb_spec c PRIORITY_NORMAL) as [-> | _];
    [ injection Hm as <-; rewrite D3, Dp; reflexivity | ].
  destruct (Z.eqb_spec c PRIORITY_LOW) as [-> | _];
    [ injection Hm as <-; rewrite D4, Dp; reflexivity | discriminate ].
Qed.

(** X11: the model rounds a written value to exactly as many decimals as
    the spin box that edits the column shows: 2 for the post ages, 4 for
    the priorities. *)
Theorem setData_rounds_to_widget_decimals config w index sb v :
  reachable config w ->
  isValid index = true ->
  mapped w (column index) = Some sb ->
  snd (setData index (Some v))
  = [ConfigSet (Spec.key (column index))
       (Py.str (Py.round v (decimals sb)) +:+ Spec.suffix (column index));
     DataChanged index index].
Proof.
  intros Hr Hv Hm.
  rewrite (mapped_decimals config w _ sb Hr Hm).
  apply setData_effects; [ assumption | ].
  exact (mapped_is_field w _ sb Hm).
Qed.

(** X12: NaN and the infinities are not rejected either: they are left as
    they are by the rounding and written as the texts [nan], [inf] and
    [-inf] with the unit of the field. *)
Theorem setData_writes_non_finite index v :
  isValid index = true ->
  Spec.is_field (column index) = true ->
  v = S754_nan \/ v = S754_infinity false \/ v = S754_infinity true ->
  exists text,
    (text = "nan" \/ text = "inf" \/ text = "-inf")
    /\ setData index (Some v)
       = (true,
          [ConfigSet (Spec.key (column index)) (text +:+ Spec.suffix (column index));
           DataChanged index index]).
Proof.
  intros Hv Hc Hnf.
  pose proof (setData_field_result index v Hv Hc) as Hr.
  pose proof (setData_effects index v Hv Hc) as He.
  destruct (setData index (Some v)) as [r e]; simpl in Hr, He; subst r e.
  destruct Hnf as [-> | [-> | ->]]; eexists; (split; [ | reflexivity ]); tauto.
Qed.

End Agreement.

Lemma setData_rounds_to_widget_decimals_witness :
  let config := {| Config.get_seconds := fun _ => Py.of_Z 600;
                   Config.get_decimal := fun _ => Py.of_decimal 5 1 |} in
  let w := SettingsWidget.init config in
  let index := SettingsModel.index 0 SettingsModel.PRIORITY_NORMAL in
  let v := Py.of_decimal 123456789 7 in
  Qt.decimals (SettingsWidget.priority_normal w) = 4%N
  /\ snd (SettingsModel.setData index (Some v))
     = [ConfigSet (Spec.key (Qt.column index))
          (Py.str (Py.round v (Qt.decimals (SettingsWidget.priority_normal w)))
           +:+ Spec.suffix (Qt.column index));
        DataChanged index index].
Proof.
  intros config w index v. split; [ vm_compute; reflexivity | ].
  apply (setData_rounds_to_widget_decimals config w index).
  - apply SettingsWidget.reach_init.
  - reflexivity.
  - reflexivity.
Defined.

Lemma setData_writes_non_finite_witness :
  let index := SettingsModel.index 0 SettingsModel.MAX_POST_AGE in
  SettingsModel.setData index (Some (S754_infinity true))
  = (true, [ConfigSet "max_post_age" "-inf minutes"; DataChanged index index])
  /\ exists text,
       (text = "nan" \/ text = "inf" \/ text = "-inf")
       /\ SettingsModel.setData index (Some (S754_infinity true))
          = (true,
             [ConfigSet (Spec.key (Qt.column index))
                (text +:+ Spec.suffix (Qt.column index));
              DataChanged index index]).
Proof.
  intros index. split; [ reflexivity | ].
  apply (setData_writes_non_finite index (S754_infinity true)).
  - reflexivity.
  - reflexivity.
  - right; right; reflexivity.
Defined.

(** ** The table of the model, and what a write does to the panel *)

Section Table.

Import Qt SettingsModel SettingsWidget.

Implicit Types (w : SettingsWidget.t) (v : Py.float).

(** X13: the table of the model has [rowCount] times [columnCount] cells,
    one row of five: the index of every position inside is read and
    written, and every position outside gets the invalid index, which is
    neither. *)
Theorem table_cells config r c v :
  (0 <= r < rowCount /\ 0 <= c < columnCount ->
   data config (index r c) <> None
   /\ fst (setData (index r c) (Some v)) = true)
  /\ (~ (0 <= r < rowCount /\ 0 <= c < columnCount) ->
      data config (index r c) = None
      /\ setData (index r c) (Some v) = (false, [])).
Proof.
  unfold index.
  destruct ((0 <=? r) && (r <? rowCount) && (0 <=? c) && (c <? columnCount)) eqn:E.
  - rewrite !andb_true_iff, !Z.leb_le, !Z.ltb_lt in E.
    split; [ intros _ | intros H; exfalso; apply H; lia ].
    assert (Hv : isValid {| row := r; column := c; has_model := true |} = true).
    { unfold isValid; simpl. rewrite !andb_true_iff, !Z.leb_le. lia. }
    assert (Hc : Spec.is_field c = true) by (apply is_field_columns; lia).
    split.
    + rewrite (data_field config _ Hv Hc). discriminate.
    + exact (setData_field_result _ v Hv Hc).
  - split; [ intros H; exfalso | intros _; split; reflexivity ].
    apply not_true_iff_false in E. apply E.
    rewrite !andb_true_iff, !Z.leb_le, !Z.ltb_lt. lia.
Qed.



End Table.

Lemma table_cells_witness :
  SettingsModel.data
    {| Config.get_seconds := fun _ => Py.of_Z 600;
       Config.get_decimal := fun _ => Py.of_decimal 5 1 |}
    (SettingsModel.index 0 4) = Some (Py.of_Z 50)
  /\ SettingsModel.index 1 0 = SettingsModel.index 0 5
  /\ ((0 <= 0 < SettingsModel.rowCount /\ 0 <= 4 < SettingsModel.columnCount ->
       SettingsModel.data
         {| Config.get_seconds := fun _ => Py.of_Z 600;
            Config.get_decimal := fun _ => Py.of_decimal 5 1 |}
         (SettingsModel.index 0 4) <> None
       /\ fst (SettingsModel.setData (SettingsModel.index 0 4) (Some (Py.of_Z 1))) = true)
      /\ (~ (0 <= 0 < SettingsModel.rowCount /\ 0 <= 4 < SettingsModel.columnCount) ->
          SettingsModel.data
            {| Config.get_seconds := fun _ => Py.of_Z 600;
               Config.get_decimal := fun _ => Py.of_decimal 5 1 |}
            (SettingsModel.index 0 4) = None
          /\ SettingsModel.setData (SettingsModel.index 0 4) (Some (Py.of_Z 1))
             = (false, []))).
Proof.
  split; [ vm_compute; reflexivity | ].
  split; [ reflexivity | ].
  apply (table_cells _ 0 4 (Py.of_Z 1)).
Defined.

